(** * Ollama HTTP client (ollama.py): a shallow embedding and its properties

    The client class [Ollama] maps each method call onto one HTTP request
    issued through the [requests] library.  The embedding keeps the pieces
    of the Python program that its behaviour depends on:

    - Python values as an inductive type [pyval], dictionaries with string
      keys as [gmap string pyval];
    - the outside world (HTTP transport, file system) as a record of
      oracles, [World];
    - side effects (requests put on the wire, text printed) in an explicit
      state, threaded by a state-and-exception monad [Py];
    - generator functions as suspended frames that are resumed by [next]. *)

From Stdlib Require Import SpecFloat.
From Stdlib.Strings Require Import Byte.
From stdpp Require Import gmap strings list fin_maps.

Set Warnings "-register-all".
Open Scope Z_scope.

(** ** Python values *)

Abbreviation bytes := (list byte).

(** [float] is IEEE binary64, kept as the decoded triple of [SpecFloat]. *)
Inductive pyval : Type :=
  | PNone
  | PBool (b : bool)
  | PInt (z : Z)
  | PFloat (f : spec_float)
  | PStr (s : string)
  | PList (l : list pyval)
  | PDict (d : gmap string pyval).

(** The literal [0.5]: mantissa 2^52, exponent -53. *)
Definition float_0_5 : spec_float := S754_finite false 4503599627370496 (-53).

(** Truth value of a dictionary and of a bytes object: non-empty. *)
Definition dict_truthy (d : gmap string pyval) : bool := negb (Nat.eqb (size d) 0).

Definition bytes_truthy (b : bytes) : bool :=
  match b with
  | [] => false
  | _ :: _ => true
  end.

(** [options or {}] where [options] is [None] or a dictionary. *)
Definition or_empty_dict (options : option (gmap string pyval)) : gmap string pyval :=
  match options with
  | None => ∅
  | Some d => if dict_truthy d then d else ∅
  end.

(** [{key: d[key] for key in d if key in allowed}] *)
Definition dict_comp_allowed (allowed : list string) (d : gmap string pyval)
  : gmap string pyval :=
  filter (λ kv, kv.1 ∈ allowed) d.

(** ** Exceptions *)

(** The [requests.exceptions] classes; all derive from [RequestException],
    itself an [Exception]. *)
Inductive request_error :=
  | ConnectionError | Timeout | MissingSchema | InvalidSchema | InvalidJSONError.

Inductive exn :=
  | FileNotFoundError (msg : string)
  | IsADirectoryError (msg : string)
  | RequestException (kind : request_error) (msg : string)
  | JSONDecodeError (msg : string).

(** [str(e)] *)
Definition exn_str (e : exn) : string :=
  match e with
  | FileNotFoundError msg => msg
  | IsADirectoryError msg => msg
  | RequestException _ msg => msg
  | JSONDecodeError msg => msg
  end.

(** ** The transport ([requests]) and the file system *)

Inductive Method := GET | POST | DELETE | HEAD.

(** One call of [requests.get/post/delete/head]: the URL and the keyword
    arguments [json=], [files=] and [stream=]. *)
Record Request := mkRequest {
  method : Method;
  url : string;
  json_body : option pyval;
  files : list (string * bytes);
  stream_flag : bool
}.

(** A [requests.Response]: [status_code], what [iter_lines()] delivers, and
    what [json()] parses ([None] when the body is not JSON and [json()]
    raises). *)
Record Response := mkResponse {
  status_code : Z;
  iter_lines : list bytes;
  json : option pyval
}.

Inductive TransportResult :=
  | Answered (r : Response)
  | Failed (kind : request_error) (msg : string).

Inductive fsentry :=
  | Absent
  | RegularFile (content : bytes)
  | Directory.

(** The environment of a run.  The transport sees the requests issued so far,
    so that a server may answer the same request differently over time. *)
Record World := mkWorld {
  transport : list Request → Request → TransportResult;
  fs : string → fsentry
}.

(** ** The client object and the program state *)

Record Ollama := mkOllama {
  base_url : string;
  api_url : string
}.

(** [Ollama.__init__] *)
Definition __init__ (base_url : string) : Ollama :=
  {| base_url := base_url; api_url := base_url +:+ "/api" |}.

Definition default_base_url : string := "http://localhost:11434".

(** [self] is the one client object of the run; [net] is the log of requests
    handed to the transport, oldest first; [stdout] the lines printed. *)
Record State := mkState {
  self : Ollama;
  net : list Request;
  stdout : list string
}.

Definition init_state (base : string) : State :=
  {| self := __init__ base; net := []; stdout := [] |}.

(** ** State-and-exception monad *)

Inductive Outcome (A : Type) :=
  | Return (a : A)
  | Raise (e : exn).
Arguments Return {A} a.
Arguments Raise {A} e.

Definition Py (A : Type) : Type := State → Outcome A * State.

#[global] Instance Py_ret : MRet Py := λ A a s, (Return a, s).

#[global] Instance Py_bind : MBind Py := λ A B f m s,
  match m s with
  | (Return a, s') => f a s'
  | (Raise e, s') => (Raise e, s')
  end.

Definition raise {A} (e : exn) : Py A := λ s, (Raise e, s).

(** [try: body  except Exception as e: handler(e)].  Every constructor of
    [exn] is a subclass of [Exception], so the handler takes them all. *)
Definition try_except {A} (body : Py A) (handler : exn → Py A) : Py A := λ s,
  match body s with
  | (Return a, s') => (Return a, s')
  | (Raise e, s') => handler e s'
  end.

Definition get_self : Py Ollama := λ s, (Return (self s), s).

Definition print (line : string) : Py unit := λ s,
  (Return (), {| self := self s; net := net s; stdout := stdout s ++ [line] |}).

(** ** The client's methods *)

Section Client.
Variable w : World.

(** Hand one request to the transport: it is logged, then the world decides
    between a response and a raised [requests] exception. *)
Definition send (r : Request) : Py Response := λ s,
  let s' := {| self := self s; net := net s ++ [r]; stdout := stdout s |} in
  match transport w (net s) r with
  | Answered resp => (Return resp, s')
  | Failed kind msg => (Raise (RequestException kind msg), s')
  end.

Definition requests_post (url : string) (json : option pyval)
    (files : list (string * bytes)) (stream : bool) : Py Response :=
  send (mkRequest POST url json files stream).

Definition requests_get (url : string) : Py Response :=
  send (mkRequest GET url None [] false).

Definition requests_delete (url : string) (json : option pyval) : Py Response :=
  send (mkRequest DELETE url json [] false).

Definition requests_head (url : string) : Py Response :=
  send (mkRequest HEAD url None [] false).

(** [response.json()] *)
Definition response_json (r : Response) : Py pyval :=
  match json r with
  | Some v => mret v
  | None => raise (JSONDecodeError "Expecting value")
  end.

(** [os.path.exists(path)] *)
Definition os_path_exists (path : string) : Py bool :=
  mret (match fs w path with Absent => false | _ => true end).

(** [open(path, "rb")], read when the upload is sent. *)
Definition open_rb (path : string) : Py bytes :=
  match fs w path with
  | RegularFile content => mret content
  | Directory => raise (IsADirectoryError ("Is a directory: " +:+ path))
  | Absent => raise (FileNotFoundError ("No such file or directory: " +:+ path))
  end.

Definition _post_request (endpoint : string) (data : pyval) : Py (Z * Response) :=
  self ← get_self;
  let url := api_url self +:+ "/" +:+ endpoint in
  response ← requests_post url (Some data) [] false;
  mret (status_code response, response).

Definition _get_request (endpoint : string) : Py (Z * Response) :=
  self ← get_self;
  let url := api_url self +:+ "/" +:+ endpoint in
  response ← requests_get url;
  mret (status_code response, response).

Definition _delete_request (endpoint : string) (data : pyval) : Py (Z * Response) :=
  self ← get_self;
  let url := api_url self +:+ "/" +:+ endpoint in
  response ← requests_delete url (Some data);
  mret (status_code response, response).

Definition _head_request (endpoint : string) : Py bool :=
  self ← get_self;
  let url := api_url self +:+ "/" +:+ endpoint in
  response ← requests_head url;
  mret (status_code response =? 200).

(** The allow-list of [generate_completion]. *)
Definition allowed_options : list string :=
  [ "num_keep"; "seed"; "num_predict"; "top_k"; "top_p"; "tfs_z";
    "typical_p"; "repeat_last_n"; "temperature"; "repeat_penalty";
    "presence_penalty"; "frequency_penalty"; "mirostat"; "mirostat_tau";
    "mirostat_eta"; "penalize_newline"; "stop"; "numa"; "num_ctx";
    "num_batch"; "num_gqa"; "num_gpu"; "main_gpu"; "low_vram"; "f16_kv";
    "logits_all"; "vocab_only"; "use_mmap"; "use_mlock"; "embedding_only";
    "rope_frequency_base"; "rope_frequency_scale"; "num_thread" ]%string.

(** Defaults of the signature: [format="json"], [options=None],
    [system=None], [template=None], [context=None], [stream=False],
    [raw=False]; the caller of the embedding passes them explicitly. *)
Definition generate_completion (model prompt format : pyval)
    (options : option (gmap string pyval))
    (system template context stream raw : pyval) : Py (Z * Response) :=
  let endpoint := "generate" in
  let options := or_empty_dict options in
  let validated_options := dict_comp_allowed allowed_options options in
  let parameters : gmap string pyval :=
    {[ "model" := model;
       "prompt" := prompt;
       "format" := format;
       "options" := PDict validated_options;
       "system" := system;
       "template" := template;
       "context" := context;
       "stream" := stream;
       "raw" := raw ]} in
  _post_request endpoint (PDict parameters).

Definition generate_chat_completion (model messages format : pyval)
    (options : option (gmap string pyval))
    (template stream : pyval) : Py (Z * Response) :=
  let endpoint := "chat" in
  let options := or_empty_dict options in
  let parameters : gmap string pyval :=
    {[ "model" := model;
       "messages" := messages;
       "format" := format;
       "options" := PDict options;
       "template" := template;
       "stream" := stream ]} in
  _post_request endpoint (PDict parameters).

Definition create_model (name modelfile stream path : pyval) : Py (Z * Response) :=
  let endpoint := "create" in
  let parameters : gmap string pyval :=
    {[ "name" := name;
       "modelfile" := modelfile;
       "stream" := stream;
       "path" := path ]} in
  _post_request endpoint (PDict parameters).

Definition blob_exists (digest : string) : Py bool :=
  let endpoint := "blobs/" +:+ digest in
  _head_request endpoint.

Definition create_blob (digest file_path : string) : Py Z :=
  let endpoint := "blobs/" +:+ digest in
  found ← os_path_exists file_path;
  if negb found then
    raise (FileNotFoundError ("File not found: " +:+ file_path))
  else
    try_except
      (file ← open_rb file_path;
       response ← requests_post endpoint None [("file"%string, file)] false;
       mret (status_code response))
      (λ e, print ("Error uploading blob: " +:+ exn_str e);; mret 500).

Definition list_local_models : Py (Z * Response) :=
  let endpoint := "tags" in
  _get_request endpoint.

Definition show_model_info (name : pyval) : Py (Z * Response) :=
  let endpoint := "show" in
  let parameters : gmap string pyval := {[ "name" := name ]} in
  _post_request endpoint (PDict parameters).

Definition copy_model (source destination : pyval) : Py (Z * Response) :=
  let endpoint := "copy" in
  let parameters : gmap string pyval :=
    {[ "source" := source; "destination" := destination ]} in
  _post_request endpoint (PDict parameters).

Definition delete_model (name : pyval) : Py (Z * Response) :=
  let endpoint := "delete" in
  let parameters : gmap string pyval := {[ "name" := name ]} in
  _delete_request endpoint (PDict parameters).

Definition generate_embeddings (model prompt : pyval)
    (additional_options : option (gmap string pyval)) : Py (Z * Response) :=
  let endpoint := "embeddings" in
  let additional_options := or_empty_dict additional_options in
  let allowed_options : list string := [] in
  let validated_options := dict_comp_allowed allowed_options additional_options in
  let parameters : gmap string pyval :=
    {[ "model" := model;
       "prompt" := prompt;
       "options" := PDict validated_options ]} in
  _post_request endpoint (PDict parameters).

End Client.

(** ** Generator functions: [pull_model] and [push_model]

    Both bodies contain [yield], so both are generator functions: a call
    runs nothing and returns a generator object whose frame is suspended
    before the first statement.  [gen_next] resumes a frame up to the next
    [yield] or to the end of the body. *)

Inductive frame :=
  | PullStart (name insecure : pyval) (stream : bool)
  | PushStart (name insecure : pyval) (stream : bool)
  | AtYield (pending : list bytes)
  | Finished.

(** What [next(gen)] hands back: the yielded line, or [StopIteration] with
    the value of the body's [return] ([None] when it falls off the end). *)
Inductive gen_event :=
  | Yielded (line : bytes)
  | StopIteration (value : option (Z * pyval)).

(** What a call of [pull_model]/[push_model] evaluates to. *)
Inductive pyresult :=
  | Generator (g : frame)
  | Tuple (status : Z) (body : pyval).

(** [for line in response.iter_lines(): if line: yield line], run from the
    lines still to come up to the next [yield]. *)
Fixpoint for_lines (lines : list bytes) : gen_event * frame :=
  match lines with
  | [] => (StopIteration None, Finished)
  | line :: rest =>
      if bytes_truthy line then (Yielded line, AtYield rest) else for_lines rest
  end.

Section Generators.
Variable w : World.

Definition pull_model_body (name insecure : pyval) (stream : bool)
  : Py (gen_event * frame) :=
  let endpoint := "pull" in
  let parameters : gmap string pyval :=
    {[ "name" := name; "insecure" := insecure; "stream" := PBool stream ]} in
  self ← get_self;
  response ← requests_post w (api_url self +:+ "/" +:+ endpoint)
               (Some (PDict parameters)) [] stream;
  if stream then
    mret (for_lines (iter_lines response))
  else
    body ← response_json response;
    mret (StopIteration (Some (status_code response, body)), Finished).

Definition push_model_body (name insecure : pyval) (stream : bool)
  : Py (gen_event * frame) :=
  let endpoint := "push" in
  let parameters : gmap string pyval :=
    {[ "name" := name; "insecure" := insecure; "stream" := PBool stream ]} in
  self ← get_self;
  response ← requests_post w (api_url self +:+ "/" +:+ endpoint)
               (Some (PDict parameters)) [] stream;
  if stream then
    mret (for_lines (iter_lines response))
  else
    body ← response_json response;
    mret (StopIteration (Some (status_code response, body)), Finished).

(** Defaults of the signatures: [insecure=False], [stream=True]. *)
Definition pull_model (name insecure : pyval) (stream : bool) : Py pyresult :=
  mret (Generator (PullStart name insecure stream)).

Definition push_model (name insecure : pyval) (stream : bool) : Py pyresult :=
  mret (Generator (PushStart name insecure stream)).

(** [next(gen)] *)
Definition gen_next (g : frame) : Py (gen_event * frame) :=
  match g with
  | PullStart name insecure stream => pull_model_body name insecure stream
  | PushStart name insecure stream => push_model_body name insecure stream
  | AtYield pending => mret (for_lines pending)
  | Finished => mret (StopIteration None, Finished)
  end.

(** [list(itertools.islice(gen, n))]: at most [n] items are taken. *)
Fixpoint islice (n : nat) (g : frame) : Py (list bytes) :=
  match n with
  | O => mret []
  | S n' =>
      '(ev, g') ← gen_next g;
      match ev with
      | Yielded line => rest ← islice n' g'; mret (line :: rest)
      | StopIteration _ => mret []
      end
  end.

(** What a caller can do with the result of a pull/push call: iterate it. *)
Definition iterate (n : nat) (r : pyresult) : Py (list bytes) :=
  match r with
  | Generator g => islice n g
  | Tuple _ _ => mret []
  end.

End Generators.

(** ** Calls as data, to quantify over "every operation" *)

Inductive Call :=
  | CGenerateCompletion (model prompt format : pyval)
      (options : option (gmap string pyval))
      (system template context stream raw : pyval)
  | CGenerateChatCompletion (model messages format : pyval)
      (options : option (gmap string pyval)) (template stream : pyval)
  | CCreateModel (name modelfile stream path : pyval)
  | CBlobExists (digest : string)
  | CCreateBlob (digest file_path : string)
  | CListLocalModels
  | CShowModelInfo (name : pyval)
  | CCopyModel (source destination : pyval)
  | CDeleteModel (name : pyval)
  | CPullModel (name insecure : pyval) (stream : bool) (taken : nat)
  | CPushModel (name insecure : pyval) (stream : bool) (taken : nat)
  | CGenerateEmbeddings (model prompt : pyval)
      (additional_options : option (gmap string pyval)).

(** Run a computation for its effects only. *)
Definition exec {A} (m : Py A) (s : State) : State := (m s).2.

(** Perform one call; for pull/push the caller then takes up to [taken]
    items from the generator. *)
Definition perform (w : World) (c : Call) : State → State :=
  match c with
  | CGenerateCompletion model prompt format options system template context stream raw =>
      exec (generate_completion w model prompt format options system template
              context stream raw)
  | CGenerateChatCompletion model messages format options template stream =>
      exec (generate_chat_completion w model messages format options template stream)
  | CCreateModel name modelfile stream path =>
      exec (create_model w name modelfile stream path)
  | CBlobExists digest => exec (blob_exists w digest)
  | CCreateBlob digest file_path => exec (create_blob w digest file_path)
  | CListLocalModels => exec (list_local_models w)
  | CShowModelInfo name => exec (show_model_info w name)
  | CCopyModel source destination => exec (copy_model w source destination)
  | CDeleteModel name => exec (delete_model w name)
  | CPullModel name insecure stream taken =>
      exec (r ← pull_model name insecure stream; iterate w taken r)
  | CPushModel name insecure stream taken =>
      exec (r ← push_model name insecure stream; iterate w taken r)
  | CGenerateEmbeddings model prompt additional_options =>
      exec (generate_embeddings w model prompt additional_options)
  end.

Definition perform_all (w : World) (cs : list Call) (s : State) : State :=
  foldl (λ s c, perform w c s) s cs.

(** The endpoint and the request target the interface description gives
    for each call. *)
Definition endpoint_of (c : Call) : string :=
  match c with
  | CGenerateCompletion _ _ _ _ _ _ _ _ _ => "generate"
  | CGenerateChatCompletion _ _ _ _ _ _ => "chat"
  | CCreateModel _ _ _ _ => "create"
  | CBlobExists digest => "blobs/" +:+ digest
  | CCreateBlob digest _ => "blobs/" +:+ digest
  | CListLocalModels => "tags"
  | CShowModelInfo _ => "show"
  | CCopyModel _ _ => "copy"
  | CDeleteModel _ => "delete"
  | CPullModel _ _ _ _ => "pull"
  | CPushModel _ _ _ _ => "push"
  | CGenerateEmbeddings _ _ _ => "embeddings"
  end.

Definition expected_url (base : string) (c : Call) : string :=
  match c with
  | CCreateBlob _ _ => endpoint_of c
  | _ => base +:+ "/api/" +:+ endpoint_of c
  end.

(** The [options] field of the JSON payload of a request. *)
Definition payload_options (r : Request) : option pyval :=
  match json_body r with
  | Some (PDict parameters) => parameters !! "options"
  | _ => None
  end.

(** ** Vocabulary of the statements *)

(** The state after a request has been logged. *)
Definition logged (r : Request) (s : State) : State :=
  {| self := self s; net := net s ++ [r]; stdout := stdout s |}.

(** The outcome of a call that wraps one request as [(status, response)]. *)
Definition status_pair (t : TransportResult) : Outcome (Z * Response) :=
  match t with
  | Answered r => Return (status_code r, r)
  | Failed kind msg => Raise (RequestException kind msg)
  end.

(** A computation that never assigns to [self]. *)
Definition preserves_self {A} (m : Py A) : Prop := ∀ s, self (m s).2 = self s.

(** The requests the operations build. *)
Definition pull_request (api : string) (name insecure : pyval) (stream : bool) : Request :=
  mkRequest POST (api +:+ "/pull")
    (Some (PDict {[ "name" := name; "insecure" := insecure; "stream" := PBool stream ]}))
    [] stream.

Definition push_request (api : string) (name insecure : pyval) (stream : bool) : Request :=
  mkRequest POST (api +:+ "/push")
    (Some (PDict {[ "name" := name; "insecure" := insecure; "stream" := PBool stream ]}))
    [] stream.

Definition upload_request (digest : string) (content : bytes) : Request :=
  mkRequest POST ("blobs/" +:+ digest) None [("file"%string, content)] false.

(** Whether a call puts a request on the wire. *)
Definition sends_request (w : World) (c : Call) : bool :=
  match c with
  | CCreateBlob _ file_path =>
      match fs w file_path with RegularFile _ => true | _ => false end
  | CPullModel _ _ _ taken | CPushModel _ _ _ taken => negb (Nat.eqb taken 0)
  | _ => true
  end.

(** A world without server: every connection is refused. *)
Definition refusing_world : World :=
  {| transport := λ _ _, Failed ConnectionError "Connection refused";
     fs := λ _, Absent |}.

(** A world where the upload target cannot be reached, and one file. *)
Definition unreachable_world : World :=
  {| transport := λ _ _, Failed MissingSchema "Invalid URL";
     fs := λ path, if String.eqb path "model.bin" then RegularFile [x01; x02] else Absent |}.

Definition refused_head_request : Request :=
  mkRequest HEAD "http://localhost:11434/api/blobs/sha256:ab" None [] false.

(** The result the blob existence check is claimed to have: true for status
    200, false for every other outcome, a connection failure included. *)
Definition blob_exists_as_claimed (t : TransportResult) : bool :=
  match t with
  | Answered r => bool_decide (status_code r = 200)
  | Failed _ _ => false
  end.

(** What a call of a method evaluates to. *)
Inductive pyret :=
  | RetPair (status : Z) (response : Response)
  | RetBool (b : bool)
  | RetInt (z : Z)
  | RetResult (r : pyresult).

(** Perform one call and keep its value; a pull/push generator is handed
    back as it is, not advanced. *)
Definition invoke (w : World) (c : Call) : Py pyret :=
  let pair (m : Py (Z * Response)) : Py pyret :=
    p ← m; mret (RetPair p.1 p.2) in
  match c with
  | CGenerateCompletion model prompt format options system template context stream raw =>
      pair (generate_completion w model prompt format options system template
              context stream raw)
  | CGenerateChatCompletion model messages format options template stream =>
      pair (generate_chat_completion w model messages format options template stream)
  | CCreateModel name modelfile stream path =>
      pair (create_model w name modelfile stream path)
  | CBlobExists digest => b ← blob_exists w digest; mret (RetBool b)
  | CCreateBlob digest file_path => z ← create_blob w digest file_path; mret (RetInt z)
  | CListLocalModels => pair (list_local_models w)
  | CShowModelInfo name => pair (show_model_info w name)
  | CCopyModel source destination => pair (copy_model w source destination)
  | CDeleteModel name => pair (delete_model w name)
  | CPullModel name insecure stream _ =>
      r ← pull_model name insecure stream; mret (RetResult r)
  | CPushModel name insecure stream _ =>
      r ← push_model name insecure stream; mret (RetResult r)
  | CGenerateEmbeddings model prompt additional_options =>
      pair (generate_embeddings w model prompt additional_options)
  end.

(** The HTTP method of each operation, whether its request carries a JSON
    body, a file, and whether the transport is asked to stream. *)
Definition expected_method (c : Call) : Method :=
  match c with
  | CBlobExists _ => HEAD
  | CListLocalModels => GET
  | CDeleteModel _ => DELETE
  | _ => POST
  end.

Definition carries_json (c : Call) : bool :=
  match c with
  | CBlobExists _ | CListLocalModels | CCreateBlob _ _ => false
  | _ => true
  end.

Definition carries_file (c : Call) : bool :=
  match c with
  | CCreateBlob _ _ => true
  | _ => false
  end.

Definition transport_streams (c : Call) : bool :=
  match c with
  | CPullModel _ _ stream _ | CPushModel _ _ stream _ => stream
  | _ => false
  end.

(** A world with a server that answers every request with status 201 and
    three lines, the middle one empty; it has one file and one directory. *)
Definition serving_response : Response :=
  {| status_code := 201; iter_lines := [[x7b]; []; [x7d]]; json := Some PNone |}.

Definition serving_world : World :=
  {| transport := λ _ _, Answered serving_response;
     fs := λ path,
       if String.eqb path "model.bin" then RegularFile [x01; x02]
       else if String.eqb path "models" then Directory
       else Absent |}.

(** * Properties *)

(** ** Auxiliary facts *)

Lemma append_assoc (a b c : string) : (a +:+ b) +:+ c = a +:+ (b +:+ c).
Proof.
  induction a as [|ch a IH]; [done|].
  change (String ch ((a +:+ b) +:+ c) = String ch (a +:+ b +:+ c)). by f_equal.
Qed.

Lemma api_url_init (base endpoint : string) :
  api_url (__init__ base) +:+ "/" +:+ endpoint = base +:+ "/api/" +:+ endpoint.
Proof. cbn [__init__ api_url]. by rewrite append_assoc. Qed.

Lemma _post_request_run w endpoint data s :
  let req := mkRequest POST (api_url (self s) +:+ "/" +:+ endpoint) (Some data) [] false in
  _post_request w endpoint data s = (status_pair (transport w (net s) req), logged req s).
Proof.
  cbv [_post_request requests_post send get_self mbind mret Py_bind Py_ret status_pair logged].
  simpl. by destruct (transport w _ _).
Qed.

Lemma _get_request_run w endpoint s :
  let req := mkRequest GET (api_url (self s) +:+ "/" +:+ endpoint) None [] false in
  _get_request w endpoint s = (status_pair (transport w (net s) req), logged req s).
Proof.
  cbv [_get_request requests_get send get_self mbind mret Py_bind Py_ret status_pair logged].
  simpl. by destruct (transport w _ _).
Qed.

Lemma _delete_request_run w endpoint data s :
  let req := mkRequest DELETE (api_url (self s) +:+ "/" +:+ endpoint) (Some data) [] false in
  _delete_request w endpoint data s = (status_pair (transport w (net s) req), logged req s).
Proof.
  cbv [_delete_request requests_delete send get_self mbind mret Py_bind Py_ret status_pair logged].
  simpl. by destruct (transport w _ _).
Qed.

Lemma _head_request_run w endpoint s :
  let req := mkRequest HEAD (api_url (self s) +:+ "/" +:+ endpoint) None [] false in
  _head_request w endpoint s =
    (match transport w (net s) req with
     | Answered r => Return (status_code r =? 200)
     | Failed kind msg => Raise (RequestException kind msg)
     end, logged req s).
Proof.
  cbv [_head_request requests_head send get_self mbind mret Py_bind Py_ret logged].
  simpl. by destruct (transport w _ _).
Qed.

Lemma dict_comp_allowed_lookup allowed (d : gmap string pyval) k v :
  dict_comp_allowed allowed d !! k = Some v ↔ k ∈ allowed ∧ d !! k = Some v.
Proof. unfold dict_comp_allowed. rewrite map_lookup_filter_Some. simpl. tauto. Qed.

Lemma dict_comp_allowed_nil (d : gmap string pyval) : dict_comp_allowed [] d = ∅.
Proof.
  apply map_eq; intros k. rewrite lookup_empty.
  destruct (dict_comp_allowed [] d !! k) as [v|] eqn:E; [|done].
  apply dict_comp_allowed_lookup in E as [E _]. by apply not_elem_of_nil in E.
Qed.

Lemma dict_truthy_false (d : gmap string pyval) : dict_truthy d = false → d = ∅.
Proof.
  unfold dict_truthy. intros H. apply map_size_empty_iff.
  destruct (size d); [done | discriminate].
Qed.

(** [options or {}] is the given dictionary, and the empty one for [None]. *)
Lemma or_empty_dict_Some (d : gmap string pyval) : or_empty_dict (Some d) = d.
Proof.
  unfold or_empty_dict. destruct (dict_truthy d) eqn:E; [done|].
  symmetry. by apply dict_truthy_false.
Qed.

Lemma or_empty_dict_None : or_empty_dict None = ∅.
Proof. done. Qed.

(** ** Computations that never assign to [self] *)

Create HintDb pres discriminated.

Lemma preserves_ret {A} (a : A) : preserves_self (mret a : Py A).
Proof. by intros s. Qed.

Lemma preserves_raise {A} e : preserves_self (raise e : Py A).
Proof. by intros s. Qed.

Lemma preserves_bind {A B} (m : Py A) (f : A → Py B) :
  preserves_self m → (∀ a, preserves_self (f a)) → preserves_self (m ≫= f).
Proof.
  intros Hm Hf s. unfold mbind, Py_bind. specialize (Hm s).
  destruct (m s) as [[a|e] s']; simpl in *; [|done].
  by rewrite Hf.
Qed.

Lemma preserves_try_except {A} (body : Py A) handler :
  preserves_self body → (∀ e, preserves_self (handler e)) →
  preserves_self (try_except body handler).
Proof.
  intros Hm Hh s. unfold try_except. specialize (Hm s).
  destruct (body s) as [[a|e] s']; simpl in *; [done|].
  by rewrite Hh.
Qed.

Lemma preserves_get_self : preserves_self get_self.
Proof. by intros s. Qed.

Lemma preserves_print line : preserves_self (print line).
Proof. by intros s. Qed.

Lemma preserves_send w r : preserves_self (send w r).
Proof. intros s. unfold send. by destruct (transport w _ _). Qed.

Lemma preserves_response_json r : preserves_self (response_json r).
Proof. unfold response_json. destruct (json r); by intros s. Qed.

Lemma preserves_open_rb w path : preserves_self (open_rb w path).
Proof. unfold open_rb. destruct (fs w path); by intros s. Qed.

#[global] Hint Resolve preserves_ret preserves_raise preserves_get_self
  preserves_print preserves_send preserves_response_json preserves_open_rb : pres.

Ltac pres_step :=
  first [ apply preserves_bind; [|intros ?]
        | apply preserves_try_except; [|intros ?]
        | solve [auto with pres]
        | match goal with |- preserves_self (if ?b then _ else _) => destruct b end
        | match goal with |- preserves_self (match ?x with _ => _ end) => destruct x end ].

Ltac pres := repeat pres_step.

Lemma preserves__post_request w endpoint data : preserves_self (_post_request w endpoint data).
Proof. unfold _post_request, requests_post. pres. Qed.

Lemma preserves__get_request w endpoint : preserves_self (_get_request w endpoint).
Proof. unfold _get_request, requests_get. pres. Qed.

Lemma preserves__delete_request w endpoint data :
  preserves_self (_delete_request w endpoint data).
Proof. unfold _delete_request, requests_delete. pres. Qed.

Lemma preserves__head_request w endpoint : preserves_self (_head_request w endpoint).
Proof. unfold _head_request, requests_head. pres. Qed.

Lemma preserves_create_blob w digest file_path :
  preserves_self (create_blob w digest file_path).
Proof. unfold create_blob, os_path_exists, requests_post. pres. Qed.

#[global] Hint Resolve preserves__post_request preserves__get_request
  preserves__delete_request preserves__head_request preserves_create_blob : pres.

Lemma preserves_gen_next w g : preserves_self (gen_next w g).
Proof.
  destruct g; unfold gen_next, pull_model_body, push_model_body, requests_post; pres.
Qed.

Lemma preserves_islice w n : ∀ g, preserves_self (islice w n g).
Proof.
  induction n as [|n IH]; intros g; simpl; [auto with pres|].
  apply preserves_bind; [apply preserves_gen_next|].
  intros [[line|v] g']; [|auto with pres].
  apply preserves_bind; [apply IH | auto with pres].
Qed.

Lemma perform_self w c s : self (perform w c s) = self s.
Proof.
  destruct c; unfold perform, exec;
    first [ apply preserves__post_request | apply preserves__get_request
          | apply preserves__delete_request | apply preserves__head_request
          | apply preserves_create_blob
          | apply (preserves_islice w taken) ].
Qed.

(** ** Iterating a pull/push generator *)

Lemma bind_run {A B} (m : Py A) (f : A → Py B) s :
  (m ≫= f) s =
    match m s with
    | (Return a, s') => f a s'
    | (Raise e, s') => (Raise e, s')
    end.
Proof. done. Qed.

Lemma ret_run {A} (a : A) s : (mret a : Py A) s = (Return a, s).
Proof. done. Qed.

Lemma islice_Finished w n s : islice w n Finished s = (Return [], s).
Proof. by destruct n. Qed.

(** Once the request has been answered, the generator hands out the
    non-empty lines in order and touches nothing else. *)
Lemma islice_AtYield w n : ∀ pending s,
  islice w n (AtYield pending) s =
    (Return (take n (List.filter bytes_truthy pending)), s).
Proof.
  induction n as [|n IH]; intros pending s; [done|].
  induction pending as [|line rest IHrest]; [done|].
  destruct line as [|b line].
  - exact IHrest.
  - cbn [islice gen_next for_lines bytes_truthy List.filter take].
    unfold mbind, mret, Py_bind, Py_ret. cbn beta iota. by rewrite IH.
Qed.

Lemma islice_for_lines w n lines s :
  (let '(ev, g') := for_lines lines in
   match ev with
   | Yielded line => rest ← islice w n g'; mret (line :: rest)
   | StopIteration _ => mret []
   end) s = (Return (take (S n) (List.filter bytes_truthy lines)), s).
Proof. exact (islice_AtYield w (S n) lines s). Qed.

(** The first [next] on a streaming pull: one POST, then the first non-empty
    line (or the end of the iteration). *)
Lemma pull_model_body_stream w name insecure s :
  let req := pull_request (api_url (self s)) name insecure true in
  pull_model_body w name insecure true s =
    (match transport w (net s) req with
     | Answered r => Return (for_lines (iter_lines r))
     | Failed kind msg => Raise (RequestException kind msg)
     end, logged req s).
Proof.
  cbv [pull_model_body requests_post send get_self mbind mret Py_bind Py_ret logged
       pull_request].
  cbn [self net stdout]. by destruct (transport w _ _).
Qed.

Lemma push_model_body_stream w name insecure s :
  let req := push_request (api_url (self s)) name insecure true in
  push_model_body w name insecure true s =
    (match transport w (net s) req with
     | Answered r => Return (for_lines (iter_lines r))
     | Failed kind msg => Raise (RequestException kind msg)
     end, logged req s).
Proof.
  cbv [push_model_body requests_post send get_self mbind mret Py_bind Py_ret logged
       push_request].
  cbn [self net stdout]. by destruct (transport w _ _).
Qed.

(** Without streaming the body runs to its [return]: no line is yielded and
    the pair travels inside [StopIteration]. *)
Lemma pull_model_body_nostream w name insecure s :
  let req := pull_request (api_url (self s)) name insecure false in
  pull_model_body w name insecure false s =
    (match transport w (net s) req with
     | Answered r =>
         match json r with
         | Some body => Return (StopIteration (Some (status_code r, body)), Finished)
         | None => Raise (JSONDecodeError "Expecting value")
         end
     | Failed kind msg => Raise (RequestException kind msg)
     end, logged req s).
Proof.
  cbv [pull_model_body requests_post send get_self mbind mret Py_bind Py_ret logged
       pull_request response_json raise].
  cbn [self net stdout]. destruct (transport w _ _) as [r|]; [|done].
  by destruct (json r).
Qed.

Lemma push_model_body_nostream w name insecure s :
  let req := push_request (api_url (self s)) name insecure false in
  push_model_body w name insecure false s =
    (match transport w (net s) req with
     | Answered r =>
         match json r with
         | Some body => Return (StopIteration (Some (status_code r, body)), Finished)
         | None => Raise (JSONDecodeError "Expecting value")
         end
     | Failed kind msg => Raise (RequestException kind msg)
     end, logged req s).
Proof.
  cbv [push_model_body requests_post send get_self mbind mret Py_bind Py_ret logged
       push_request response_json raise].
  cbn [self net stdout]. destruct (transport w _ _) as [r|]; [|done].
  by destruct (json r).
Qed.

(** Streaming pull, iterated: exactly the non-empty lines of the response,
    in arrival order. *)
Lemma pull_model_stream_lines w name insecure n s r :
  transport w (net s) (pull_request (api_url (self s)) name insecure true) = Answered r →
  (g ← pull_model name insecure true; iterate w (S n) g) s =
    (Return (take (S n) (List.filter bytes_truthy (iter_lines r))),
     logged (pull_request (api_url (self s)) name insecure true) s).
Proof.
  intros Hr. unfold pull_model. rewrite bind_run, ret_run. cbn [iterate].
  cbn [islice gen_next]. rewrite bind_run, pull_model_body_stream.
  cbn zeta. rewrite Hr.
  apply islice_for_lines.
Qed.

Lemma push_model_stream_lines w name insecure n s r :
  transport w (net s) (push_request (api_url (self s)) name insecure true) = Answered r →
  (g ← push_model name insecure true; iterate w (S n) g) s =
    (Return (take (S n) (List.filter bytes_truthy (iter_lines r))),
     logged (push_request (api_url (self s)) name insecure true) s).
Proof.
  intros Hr. unfold push_model. rewrite bind_run, ret_run. cbn [iterate].
  cbn [islice gen_next]. rewrite bind_run, push_model_body_stream.
  cbn zeta. rewrite Hr.
  apply islice_for_lines.
Qed.

Lemma islice_PullStart_net w n name insecure stream s :
  net (islice w (S n) (PullStart name insecure stream) s).2 =
    net s ++ [pull_request (api_url (self s)) name insecure stream].
Proof.
  cbn [islice gen_next]. rewrite bind_run. destruct stream.
  - rewrite pull_model_body_stream. cbn zeta.
    destruct (transport w _ _) as [r|]; [|done].
    by rewrite islice_for_lines.
  - rewrite pull_model_body_nostream. cbn zeta.
    destruct (transport w _ _) as [r|]; [|done].
    by destruct (json r).
Qed.

Lemma islice_PushStart_net w n name insecure stream s :
  net (islice w (S n) (PushStart name insecure stream) s).2 =
    net s ++ [push_request (api_url (self s)) name insecure stream].
Proof.
  cbn [islice gen_next]. rewrite bind_run. destruct stream.
  - rewrite push_model_body_stream. cbn zeta.
    destruct (transport w _ _) as [r|]; [|done].
    by rewrite islice_for_lines.
  - rewrite push_model_body_nostream. cbn zeta.
    destruct (transport w _ _) as [r|]; [|done].
    by destruct (json r).
Qed.

(** [create_blob], case by case on what the path names. *)
Lemma create_blob_run w digest file_path s :
  create_blob w digest file_path s =
    match fs w file_path with
    | Absent => (Raise (FileNotFoundError ("File not found: " +:+ file_path)), s)
    | Directory =>
        (Return 500,
         {| self := self s; net := net s;
            stdout := stdout s ++
              ["Error uploading blob: " +:+ "Is a directory: " +:+ file_path] |})
    | RegularFile content =>
        let req := upload_request digest content in
        match transport w (net s) req with
        | Answered r => (Return (status_code r), logged req s)
        | Failed kind msg =>
            (Return 500,
             {| self := self s; net := net s ++ [req];
                stdout := stdout s ++ ["Error uploading blob: " +:+ msg] |})
        end
    end.
Proof.
  unfold create_blob, os_path_exists, open_rb. rewrite bind_run, ret_run.
  destruct (fs w file_path) as [|content|]; cbn [negb]; [done| |done].
  unfold try_except. rewrite bind_run, ret_run.
  cbv [requests_post send upload_request logged]. rewrite bind_run.
  by destruct (transport w _ _).
Qed.

(** ** The claims *)

(** C1 (the code departs from it).  A call of [pull_model] or [push_model]
    with [stream=False] does not evaluate to a (status, parsed JSON) pair:
    both are generator functions, so the call sends nothing and evaluates to
    a generator object whose frame has not started. *)
Theorem pull_push_nostream_evaluate_to_generators name insecure s :
  pull_model name insecure false s =
    (Return (Generator (PullStart name insecure false)), s)
  ∧ push_model name insecure false s =
    (Return (Generator (PushStart name insecure false)), s)
  ∧ (∀ status body,
       (pull_model name insecure false s).1 ≠ Return (Tuple status body)
       ∧ (push_model name insecure false s).1 ≠ Return (Tuple status body)).
Proof. repeat split; done. Qed.

(** C2 as stated fails: when the connection is refused, [blob_exists] raises
    the transport's exception instead of returning [False]. *)
Lemma blob_exists_connection_refused_raises :
  transport refusing_world [] refused_head_request =
    Failed ConnectionError "Connection refused"
  ∧ (blob_exists refusing_world "sha256:ab" (init_state default_base_url)).2 =
      logged refused_head_request (init_state default_base_url)
  ∧ (blob_exists refusing_world "sha256:ab" (init_state default_base_url)).1 =
      Raise (RequestException ConnectionError "Connection refused")
  ∧ (blob_exists refusing_world "sha256:ab" (init_state default_base_url)).1 ≠
      Return (blob_exists_as_claimed (transport refusing_world [] refused_head_request)).
Proof. repeat split; done. Qed.

(** C2, amended.  [blob_exists] sends one HEAD request to
    [{api_url}/blobs/{digest}]; when the transport answers, it returns true
    if and only if the status is exactly 200 (so false for 404 and 500); when
    the transport raises, the exception reaches the caller. *)
Theorem blob_exists_true_iff_status_200 w digest s :
  let req := mkRequest HEAD (api_url (self s) +:+ "/" +:+ "blobs/" +:+ digest) None [] false in
  blob_exists w digest s =
    (match transport w (net s) req with
     | Answered r => Return (bool_decide (status_code r = 200))
     | Failed kind msg => Raise (RequestException kind msg)
     end, logged req s).
Proof.
  unfold blob_exists. rewrite _head_request_run. cbn zeta.
  destruct (transport w _ _) as [r|]; [|done].
  do 2 f_equal. destruct (Z.eqb_spec (status_code r) 200) as [E|E].
  - by rewrite bool_decide_eq_true_2.
  - by rewrite bool_decide_eq_false_2.
Qed.

(** C3.  A client built for [base] sends the request of every operation to
    [{base}/api/{endpoint}], except [create_blob], whose request goes to the
    bare [blobs/{digest}]; each call sends exactly one request, or none when
    [create_blob] is given no regular file or a pull/push generator is never
    advanced. *)
Theorem requests_go_to_api_url_except_create_blob w base c log out :
  let s := {| self := __init__ base; net := log; stdout := out |} in
  ∃ r, url r = expected_url base c
       ∧ net (perform w c s) = net s ++ (if sends_request w c then [r] else []).
Proof.
  intros s.
  destruct c; unfold perform, exec, sends_request;
    try (unfold generate_completion, generate_chat_completion, create_model,
           show_model_info, copy_model, generate_embeddings;
         rewrite _post_request_run; cbn zeta; eexists; split; [|done];
         apply api_url_init).
  - unfold blob_exists. rewrite _head_request_run. eexists; split; [|done].
    apply (api_url_init base ("blobs/" +:+ digest)).
  - rewrite create_blob_run.
    destruct (fs w file_path) as [|content|]; cbn [snd].
    + exists (upload_request digest []). by rewrite app_nil_r.
    + exists (upload_request digest content). split; [done|].
      cbn zeta. by destruct (transport w _ _).
    + exists (upload_request digest []). by rewrite app_nil_r.
  - unfold list_local_models. rewrite _get_request_run. eexists; split; [|done].
    apply api_url_init.
  - unfold delete_model. rewrite _delete_request_run. eexists; split; [|done].
    apply api_url_init.
  - exists (pull_request (api_url (__init__ base)) name insecure stream).
    split; [apply api_url_init|].
    unfold pull_model. rewrite bind_run, ret_run. cbn [iterate].
    destruct taken as [|n]; [by rewrite app_nil_r|].
    by rewrite islice_PullStart_net.
  - exists (push_request (api_url (__init__ base)) name insecure stream).
    split; [apply api_url_init|].
    unfold push_model. rewrite bind_run, ret_run. cbn [iterate].
    destruct taken as [|n]; [by rewrite app_nil_r|].
    by rewrite islice_PushStart_net.
Qed.

(** C4.  The [options] field of the payload of [generate_completion] holds
    exactly the entries of the given mapping whose key is on the allow-list,
    each with its value; for [{"temperature": 0.5, "bogus": 1}] it is
    [{"temperature": 0.5}]. *)
Theorem generate_completion_options_allow_list :
  (∀ w model prompt format (d : gmap string pyval) system template context stream raw s,
     ∃ req validated,
       net (generate_completion w model prompt format (Some d) system template
              context stream raw s).2 = net s ++ [req]
       ∧ payload_options req = Some (PDict validated)
       ∧ ∀ k v, validated !! k = Some v ↔ k ∈ allowed_options ∧ d !! k = Some v)
  ∧ (∀ w model prompt format system template context stream raw s,
       ∃ req,
         net (generate_completion w model prompt format
                (Some {[ "temperature" := PFloat float_0_5; "bogus" := PInt 1 ]})
                system template context stream raw s).2 = net s ++ [req]
         ∧ payload_options req = Some (PDict {[ "temperature" := PFloat float_0_5 ]})).
Proof.
  split; intros; unfold generate_completion; rewrite _post_request_run;
    cbn [snd logged net]; rewrite or_empty_dict_Some.
  - eexists _, (dict_comp_allowed allowed_options d). split; [done|]. split.
    + unfold payload_options. cbn [json_body]. by simplify_map_eq.
    + apply dict_comp_allowed_lookup.
  - eexists. split; [done|].
    unfold payload_options. cbn [json_body]. simplify_map_eq. by vm_compute.
Qed.

(** C5.  Whatever [additional_options] is, the [options] field of the payload
    of [generate_embeddings] is the empty mapping. *)
Theorem generate_embeddings_options_empty w model prompt additional_options s :
  ∃ req,
    net (generate_embeddings w model prompt additional_options s).2 = net s ++ [req]
    ∧ payload_options req = Some (PDict ∅).
Proof.
  unfold generate_embeddings. rewrite _post_request_run. cbn [snd logged net].
  eexists. split; [done|].
  unfold payload_options. cbn [json_body]. rewrite dict_comp_allowed_nil.
  by simplify_map_eq.
Qed.

(** C6.  When the path names a file and the transport raises during the
    upload, [create_blob] returns 500 (after printing the error) and raises
    nothing. *)
Theorem create_blob_transport_exception_gives_500
    w digest file_path content kind msg s :
  fs w file_path = RegularFile content →
  transport w (net s) (upload_request digest content) = Failed kind msg →
  create_blob w digest file_path s =
    (Return 500,
     {| self := self s; net := net s ++ [upload_request digest content];
        stdout := stdout s ++ ["Error uploading blob: " +:+ msg] |}).
Proof. intros Hfile Hfail. rewrite create_blob_run, Hfile. cbn zeta. by rewrite Hfail. Qed.

Lemma create_blob_transport_exception_gives_500_witness :
  fs unreachable_world "model.bin" = RegularFile [x01; x02]
  ∧ transport unreachable_world (net (init_state default_base_url))
      (upload_request "sha256:ab" [x01; x02]) = Failed MissingSchema "Invalid URL"
  ∧ create_blob unreachable_world "sha256:ab" "model.bin" (init_state default_base_url) =
      (Return 500,
       {| self := __init__ default_base_url;
          net := [upload_request "sha256:ab" [x01; x02]];
          stdout := ["Error uploading blob: Invalid URL"%string] |}).
Proof.
  split; [reflexivity|]. split; [reflexivity|].
  apply (create_blob_transport_exception_gives_500 unreachable_world
           "sha256:ab" "model.bin" [x01; x02] MissingSchema "Invalid URL"
           (init_state default_base_url)); reflexivity.
Defined.

(** C7.  For a path that does not exist, [create_blob] raises
    [FileNotFoundError] and the state, the request log included, is what it
    was: no request is sent. *)
Theorem create_blob_missing_file_raises w digest file_path s :
  fs w file_path = Absent →
  create_blob w digest file_path s =
    (Raise (FileNotFoundError ("File not found: " +:+ file_path)), s).
Proof. intros Habsent. by rewrite create_blob_run, Habsent. Qed.

Lemma create_blob_missing_file_raises_witness :
  fs refusing_world "nowhere.bin" = Absent
  ∧ create_blob refusing_world "sha256:ab" "nowhere.bin" (init_state default_base_url) =
      (Raise (FileNotFoundError "File not found: nowhere.bin"),
       init_state default_base_url).
Proof.
  split; [reflexivity|].
  apply (create_blob_missing_file_raises refusing_world "sha256:ab" "nowhere.bin").
  reflexivity.
Defined.

(** C8.  [generate_chat_completion] sends exactly one request, a POST to
    [{api_url}/chat] whose [options] field is the given mapping itself, and
    its outcome is the pair of the status and the response (or the
    transport's exception). *)
Theorem generate_chat_completion_options_unfiltered
    w model messages format (d : gmap string pyval) template stream s :
  ∃ req,
    method req = POST
    ∧ url req = api_url (self s) +:+ "/chat"
    ∧ payload_options req = Some (PDict d)
    ∧ generate_chat_completion w model messages format (Some d) template stream s =
        (status_pair (transport w (net s) req),
         {| self := self s; net := net s ++ [req]; stdout := stdout s |}).
Proof.
  unfold generate_chat_completion. rewrite _post_request_run. cbn zeta.
  rewrite or_empty_dict_Some.
  eexists. split; [|split; [|split; [|reflexivity]]]; [done..|].
  unfold payload_options. cbn [json_body]. by simplify_map_eq.
Qed.

(** C9.  From construction on, through any sequence of operations, the
    client's [base_url] and [api_url] keep the values [__init__] gave them. *)
Theorem base_address_unchanged_by_operations w base cs :
  self (perform_all w cs (init_state base)) = __init__ base
  ∧ base_url (self (perform_all w cs (init_state base))) = base
  ∧ api_url (self (perform_all w cs (init_state base))) = base +:+ "/api".
Proof.
  assert (∀ s, self (perform_all w cs s) = self s) as Hself.
  { induction cs as [|c cs IH]; intros s; [done|].
    unfold perform_all in *. cbn [foldl]. by rewrite IH, perform_self. }
  by rewrite Hself.
Qed.

(** C10.  With [options] (or [additional_options]) equal to [None], each of
    [generate_completion], [generate_chat_completion] and
    [generate_embeddings] behaves as with the empty dictionary, and the
    [options] field of its payload is the empty mapping. *)
Theorem options_None_as_empty_dict
    w model prompt messages format system template context stream raw s :
  (generate_completion w model prompt format None system template context stream raw s =
     generate_completion w model prompt format (Some ∅) system template context stream raw s
   ∧ ∃ req,
       net (generate_completion w model prompt format None system template
              context stream raw s).2 = net s ++ [req]
       ∧ payload_options req = Some (PDict ∅))
  ∧ (generate_chat_completion w model messages format None template stream s =
       generate_chat_completion w model messages format (Some ∅) template stream s
     ∧ ∃ req,
         net (generate_chat_completion w model messages format None template
                stream s).2 = net s ++ [req]
         ∧ payload_options req = Some (PDict ∅))
  ∧ (generate_embeddings w model prompt None s =
       generate_embeddings w model prompt (Some ∅) s
     ∧ ∃ req,
         net (generate_embeddings w model prompt None s).2 = net s ++ [req]
         ∧ payload_options req = Some (PDict ∅)).
Proof.
  split; [|split]; (split; [done|]).
  - unfold generate_completion. rewrite _post_request_run. cbn [snd logged net].
    eexists. split; [done|]. unfold payload_options. cbn [json_body].
    rewrite or_empty_dict_None. unfold dict_comp_allowed.
    rewrite map_filter_empty. by simplify_map_eq.
  - unfold generate_chat_completion. rewrite _post_request_run. cbn [snd logged net].
    eexists. split; [done|]. unfold payload_options. cbn [json_body].
    by simplify_map_eq.
  - unfold generate_embeddings. rewrite _post_request_run. cbn [snd logged net].
    eexists. split; [done|]. unfold payload_options. cbn [json_body].
    rewrite dict_comp_allowed_nil. by simplify_map_eq.
Qed.

(** ** Further properties of the generators *)

Lemma filter_truthy_length (lines : list bytes) :
  (length (List.filter bytes_truthy lines) ≤ length lines)%nat.
Proof. induction lines as [|l lines IH]; simpl; [lia|]. destruct (bytes_truthy l); simpl; lia. Qed.

Lemma filter_truthy_nonempty (lines : list bytes) :
  Forall (λ l, l ≠ []) (List.filter bytes_truthy lines).
Proof.
  induction lines as [|l lines IH]; simpl; [constructor|].
  destruct l as [|b l]; simpl; [done|]. by constructor.
Qed.

(** X1.  A streaming [pull_model] whose request is answered hands out, when
    up to [n+1] items are taken, the first [n+1] non-empty lines of the
    response in arrival order, after one POST; taking at least as many items
    as there are lines gives all the non-empty lines, and no item is empty. *)
Theorem pull_model_stream_yields_nonempty_lines w name insecure n s r :
  transport w (net s) (pull_request (api_url (self s)) name insecure true) = Answered r →
  (g ← pull_model name insecure true; iterate w (S n) g) s =
    (Return (take (S n) (List.filter bytes_truthy (iter_lines r))),
     logged (pull_request (api_url (self s)) name insecure true) s)
  ∧ ((g ← pull_model name insecure true; iterate w (S (length (iter_lines r))) g) s).1 =
      Return (List.filter bytes_truthy (iter_lines r))
  ∧ Forall (λ line, line ≠ []) (take (S n) (List.filter bytes_truthy (iter_lines r))).
Proof.
  intros Hr. split; [by apply pull_model_stream_lines|]. split.
  - rewrite (pull_model_stream_lines w name insecure _ s r Hr). cbn [fst].
    f_equal. apply take_ge. pose proof (filter_truthy_length (iter_lines r)). lia.
  - apply Forall_take, filter_truthy_nonempty.
Qed.

Lemma pull_model_stream_yields_nonempty_lines_witness :
  transport serving_world (net (init_state default_base_url))
    (pull_request (api_url (self (init_state default_base_url))) (PStr "llama2")
       (PBool false) true) = Answered serving_response
  ∧ ((g ← pull_model (PStr "llama2") (PBool false) true; iterate serving_world 4 g)
       (init_state default_base_url)).1 = Return [[x7b]; [x7d]].
Proof.
  split; [reflexivity|].
  exact (proj1 (proj2 (pull_model_stream_yields_nonempty_lines serving_world
    (PStr "llama2") (PBool false) 3 (init_state default_base_url) serving_response
    eq_refl))).
Defined.

(** X2.  The same for a streaming [push_model]: the non-empty lines of the
    answer, in arrival order, after one POST to the push endpoint. *)
Theorem push_model_stream_yields_nonempty_lines w name insecure n s r :
  transport w (net s) (push_request (api_url (self s)) name insecure true) = Answered r →
  (g ← push_model name insecure true; iterate w (S n) g) s =
    (Return (take (S n) (List.filter bytes_truthy (iter_lines r))),
     logged (push_request (api_url (self s)) name insecure true) s)
  ∧ ((g ← push_model name insecure true; iterate w (S (length (iter_lines r))) g) s).1 =
      Return (List.filter bytes_truthy (iter_lines r))
  ∧ Forall (λ line, line ≠ []) (take (S n) (List.filter bytes_truthy (iter_lines r))).
Proof.
  intros Hr. split; [by apply push_model_stream_lines|]. split.
  - rewrite (push_model_stream_lines w name insecure _ s r Hr). cbn [fst].
    f_equal. apply take_ge. pose proof (filter_truthy_length (iter_lines r)). lia.
  - apply Forall_take, filter_truthy_nonempty.
Qed.

Lemma push_model_stream_yields_nonempty_lines_witness :
  transport serving_world (net (init_state default_base_url))
    (push_request (api_url (self (init_state default_base_url))) (PStr "llama2")
       (PBool false) true) = Answered serving_response
  ∧ ((g ← push_model (PStr "llama2") (PBool false) true; iterate serving_world 4 g)
       (init_state default_base_url)).1 = Return [[x7b]; [x7d]].
Proof.
  split; [reflexivity|].
  exact (proj1 (proj2 (push_model_stream_yields_nonempty_lines serving_world
    (PStr "llama2") (PBool false) 3 (init_state default_base_url) serving_response
    eq_refl))).
Defined.

(** X3.  A pull or push generator is lazy and sends one request in all:
    creating it, or taking no item, sends nothing; the first [next] sends the
    POST; however many items are taken afterwards, whatever the stream flag
    and whatever the transport does, nothing more is sent. *)
Theorem generators_send_exactly_one_request w name insecure stream n s :
  (pull_model name insecure stream s).2 = s
  ∧ (push_model name insecure stream s).2 = s
  ∧ ((g ← pull_model name insecure stream; iterate w 0 g) s).2 = s
  ∧ ((g ← push_model name insecure stream; iterate w 0 g) s).2 = s
  ∧ net ((g ← pull_model name insecure stream; iterate w (S n) g) s).2 =
      net s ++ [pull_request (api_url (self s)) name insecure stream]
  ∧ net ((g ← push_model name insecure stream; iterate w (S n) g) s).2 =
      net s ++ [push_request (api_url (self s)) name insecure stream].
Proof.
  repeat split; try done.
  - unfold pull_model. rewrite bind_run, ret_run. apply islice_PullStart_net.
  - unfold push_model. rewrite bind_run, ret_run. apply islice_PushStart_net.
Qed.


(** X5.  A transport failure is not seen when the generator is created but
    at its first [next], which raises the transport's exception. *)
Theorem generator_failure_surfaces_at_first_next w name insecure stream kind msg s :
  transport w (net s) (pull_request (api_url (self s)) name insecure stream)
    = Failed kind msg →
  pull_model name insecure stream s =
    (Return (Generator (PullStart name insecure stream)), s)
  ∧ gen_next w (PullStart name insecure stream) s =
      (Raise (RequestException kind msg),
       logged (pull_request (api_url (self s)) name insecure stream) s).
Proof.
  intros Hfail. split; [done|]. cbn [gen_next]. destruct stream.
  - rewrite pull_model_body_stream. cbn zeta. by rewrite Hfail.
  - rewrite pull_model_body_nostream. cbn zeta. by rewrite Hfail.
Qed.

Lemma generator_failure_surfaces_at_first_next_witness :
  transport refusing_world (net (init_state default_base_url))
    (pull_request (api_url (self (init_state default_base_url))) (PStr "llama2")
       (PBool false) true) = Failed ConnectionError "Connection refused"
  ∧ (gen_next refusing_world (PullStart (PStr "llama2") (PBool false) true)
       (init_state default_base_url)).1 =
      Raise (RequestException ConnectionError "Connection refused").
Proof.
  split; [reflexivity|].
  exact (f_equal fst (proj2 (generator_failure_surfaces_at_first_next refusing_world
    (PStr "llama2") (PBool false) true ConnectionError "Connection refused"
    (init_state default_base_url) eq_refl))).
Defined.

(** ** Further properties of the requests *)

(** What one call adds to the request log, from any state. *)
Lemma perform_request w c s :
  ∃ r, net (perform w c s) = net s ++ (if sends_request w c then [r] else [])
       ∧ url r = match c with
                 | CCreateBlob digest _ => "blobs/" +:+ digest
                 | _ => api_url (self s) +:+ "/" +:+ endpoint_of c
                 end
       ∧ method r = expected_method c
       ∧ (is_Some (json_body r) ↔ carries_json c = true)
       ∧ (files r ≠ [] ↔ carries_file c = true)
       ∧ stream_flag r = transport_streams c.
Proof.
  assert (∀ v : pyval, is_Some (Some v) ↔ true = true) as Hsome by (intros; split; eauto).
  assert (is_Some (@None pyval) ↔ false = true) as Hnone
    by (split; [intros [? ?]|]; done).
  assert (∀ f : string * bytes, [f] ≠ [] ↔ true = true) as Hfile by done.
  assert (@nil (string * bytes) ≠ [] ↔ false = true) as Hnil by done.
  destruct c; unfold perform, exec, sends_request;
    try (unfold generate_completion, generate_chat_completion, create_model,
           show_model_info, copy_model, generate_embeddings;
         rewrite _post_request_run; cbn zeta; eexists;
         split; [done|]; cbn; by eauto 10).
  - unfold blob_exists. rewrite _head_request_run. cbn zeta. eexists.
    split; [done|]. cbn. by eauto 10.
  - rewrite create_blob_run.
    destruct (fs w file_path) as [|content|]; cbn [snd].
    + exists (upload_request digest []). rewrite app_nil_r. cbn. by eauto 10.
    + exists (upload_request digest content). split.
      * cbn zeta. by destruct (transport w _ _).
      * cbn. by eauto 10.
    + exists (upload_request digest []). rewrite app_nil_r. cbn. by eauto 10.
  - unfold list_local_models. rewrite _get_request_run. cbn zeta. eexists.
    split; [done|]. cbn. by eauto 10.
  - unfold delete_model. rewrite _delete_request_run. cbn zeta. eexists.
    split; [done|]. cbn. by eauto 10.
  - exists (pull_request (api_url (self s)) name insecure stream). split.
    + unfold pull_model. rewrite bind_run, ret_run. cbn [iterate].
      destruct taken as [|n]; [by rewrite app_nil_r|].
      by rewrite islice_PullStart_net.
    + cbn. by eauto 10.
  - exists (push_request (api_url (self s)) name insecure stream). split.
    + unfold push_model. rewrite bind_run, ret_run. cbn [iterate].
      destruct taken as [|n]; [by rewrite app_nil_r|].
      by rewrite islice_PushStart_net.
    + cbn. by eauto 10.
Qed.

Lemma islice_PullStart_state w n name insecure stream s :
  (islice w (S n) (PullStart name insecure stream) s).2 =
    logged (pull_request (api_url (self s)) name insecure stream) s.
Proof.
  cbn [islice gen_next]. rewrite bind_run. destruct stream.
  - rewrite pull_model_body_stream. cbn zeta.
    destruct (transport w _ _) as [r|]; [|done].
    by rewrite islice_for_lines.
  - rewrite pull_model_body_nostream. cbn zeta.
    destruct (transport w _ _) as [r|]; [|done].
    by destruct (json r).
Qed.

Lemma islice_PushStart_state w n name insecure stream s :
  (islice w (S n) (PushStart name insecure stream) s).2 =
    logged (push_request (api_url (self s)) name insecure stream) s.
Proof.
  cbn [islice gen_next]. rewrite bind_run. destruct stream.
  - rewrite push_model_body_stream. cbn zeta.
    destruct (transport w _ _) as [r|]; [|done].
    by rewrite islice_for_lines.
  - rewrite push_model_body_nostream. cbn zeta.
    destruct (transport w _ _) as [r|]; [|done].
    by destruct (json r).
Qed.

(** X6.  Each operation uses one HTTP method: HEAD for [blob_exists], GET
    for [list_local_models], DELETE for [delete_model], POST for the others;
    a JSON body goes with every request but the HEAD, the GET and the blob
    upload, which alone carries a file; only a streaming pull or push asks
    the transport to stream. *)
Theorem request_shape_by_operation w c s :
  ∃ r, net (perform w c s) = net s ++ (if sends_request w c then [r] else [])
       ∧ method r = expected_method c
       ∧ (is_Some (json_body r) ↔ carries_json c = true)
       ∧ (files r ≠ [] ↔ carries_file c = true)
       ∧ stream_flag r = transport_streams c.
Proof.
  destruct (perform_request w c s) as (r & Hnet & _ & Hrest). by exists r.
Qed.

(** X7.  The request log only grows, by at most one request per call: after
    a sequence of calls the old log is a prefix of the new one, and the new
    one is longer by at most the number of calls (nothing is retried). *)
Theorem request_log_grows_by_at_most_one_per_call w cs s :
  net s `prefix_of` net (perform_all w cs s)
  ∧ (length (net (perform_all w cs s)) ≤ length (net s) + length cs)%nat.
Proof.
  revert s. induction cs as [|c cs IH]; intros s.
  - split; [done|]. cbn. lia.
  - change (perform_all w (c :: cs) s) with (perform_all w cs (perform w c s)).
    destruct (IH (perform w c s)) as [Hpre Hlen].
    destruct (perform_request w c s) as (r & Hnet & _).
    rewrite Hnet in Hpre, Hlen. split.
    + etrans; [|exact Hpre]. by apply prefix_app_r.
    + rewrite length_app in Hlen. cbn [length].
      destruct (sends_request w c); cbn [length] in Hlen; lia.
Qed.

(** X8.  Nothing is printed by any operation except [create_blob], and
    [create_blob] prints at most one line, which starts with
    "Error uploading blob: ". *)
Theorem only_create_blob_prints w c s :
  stdout (perform w c s) = stdout s
  ∨ ∃ digest file_path msg,
      c = CCreateBlob digest file_path
      ∧ stdout (perform w c s) = stdout s ++ ["Error uploading blob: " +:+ msg].
Proof.
  destruct c; unfold perform, exec;
    try (left;
         unfold generate_completion, generate_chat_completion, create_model,
           show_model_info, copy_model, generate_embeddings;
         by rewrite _post_request_run).
  - left. unfold blob_exists. by rewrite _head_request_run.
  - rewrite create_blob_run. destruct (fs w file_path) as [|content|]; cbn [snd].
    + by left.
    + cbn zeta. destruct (transport w _ _) as [r|kind msg]; [by left|].
      right. by exists digest, file_path, msg.
    + right. by exists digest, file_path, ("Is a directory: " +:+ file_path).
  - left. unfold list_local_models. by rewrite _get_request_run.
  - left. unfold delete_model. by rewrite _delete_request_run.
  - left. unfold pull_model. rewrite bind_run, ret_run. cbn [iterate].
    destruct taken as [|n]; [done|]. by rewrite islice_PullStart_state.
  - left. unfold push_model. rewrite bind_run, ret_run. cbn [iterate].
    destruct taken as [|n]; [done|]. by rewrite islice_PushStart_state.
Qed.

(** ** Further properties of [create_blob] *)

(** X9.  When the path names a directory, [create_blob] sends no request:
    opening it fails inside the [try], the error is printed and 500 is
    returned. *)
Theorem create_blob_directory_gives_500_without_request w digest file_path s :
  fs w file_path = Directory →
  (create_blob w digest file_path s).1 = Return 500
  ∧ net (create_blob w digest file_path s).2 = net s
  ∧ ∃ msg, stdout (create_blob w digest file_path s).2 =
             stdout s ++ ["Error uploading blob: " +:+ msg].
Proof. intros Hdir. rewrite create_blob_run, Hdir. by eauto. Qed.

Lemma create_blob_directory_gives_500_without_request_witness :
  fs serving_world "models" = Directory
  ∧ (create_blob serving_world "sha256:ab" "models" (init_state default_base_url)).1 =
      Return 500.
Proof.
  split; [reflexivity|].
  exact (proj1 (create_blob_directory_gives_500_without_request serving_world
    "sha256:ab" "models" (init_state default_base_url) eq_refl)).
Defined.



(** X11.  The only exception [create_blob] lets out is the
    [FileNotFoundError] of its own guard: when it raises, the path does not
    exist, the exception is that one, and nothing was sent or printed. *)
Theorem create_blob_raises_only_file_not_found w digest file_path s e :
  (create_blob w digest file_path s).1 = Raise e →
  fs w file_path = Absent
  ∧ e = FileNotFoundError ("File not found: " +:+ file_path)
  ∧ (create_blob w digest file_path s).2 = s.
Proof.
  rewrite create_blob_run. destruct (fs w file_path) as [|content|]; cbn [fst snd].
  - intros [= <-]. done.
  - cbn zeta. by destruct (transport w _ _).
  - done.
Qed.

Lemma create_blob_raises_only_file_not_found_witness :
  (create_blob refusing_world "sha256:ab" "nowhere.bin" (init_state default_base_url)).1 =
    Raise (FileNotFoundError "File not found: nowhere.bin")
  ∧ fs refusing_world "nowhere.bin" = Absent.
Proof.
  split; [reflexivity|].
  exact (proj1 (create_blob_raises_only_file_not_found refusing_world "sha256:ab"
    "nowhere.bin" (init_state default_base_url)
    (FileNotFoundError "File not found: nowhere.bin") eq_refl)).
Defined.

(** ** Further properties of the option filters *)

(** Settle a decidable closed proposition by evaluation. *)
Ltac by_decide := apply (bool_decide_unpack _); vm_compute; exact I.

Lemma dict_comp_allowed_insert_not allowed (d : gmap string pyval) k v :
  k ∉ allowed → dict_comp_allowed allowed (<[k:=v]> d) = dict_comp_allowed allowed d.
Proof.
  intros Hk. apply map_eq; intros i. apply option_eq; intros x.
  rewrite !dict_comp_allowed_lookup.
  destruct (decide (i = k)) as [->|Hne]; [tauto|].
  by rewrite lookup_insert_ne.
Qed.

(** X12.  When every key of [options] is on the allow-list,
    [generate_completion] sends the mapping as it is: nothing is dropped. *)
Theorem generate_completion_allowed_options_pass_through
    w model prompt format (d : gmap string pyval) system template context stream raw s :
  map_Forall (λ k _, k ∈ allowed_options) d →
  ∃ req,
    net (generate_completion w model prompt format (Some d) system template
           context stream raw s).2 = net s ++ [req]
    ∧ payload_options req = Some (PDict d).
Proof.
  intros Hall. unfold generate_completion. rewrite _post_request_run.
  cbn [snd logged net]. rewrite or_empty_dict_Some.
  eexists. split; [done|]. unfold payload_options. cbn [json_body].
  simplify_map_eq. do 2 f_equal. unfold dict_comp_allowed.
  apply map_filter_id. intros k v Hkv. exact (Hall k v Hkv).
Qed.

Lemma generate_completion_allowed_options_pass_through_witness :
  map_Forall (λ k _, k ∈ allowed_options)
    ({[ "seed" := PInt 42; "top_k" := PInt 40 ]} : gmap string pyval)
  ∧ ∃ req,
      net (generate_completion serving_world (PStr "llama2") (PStr "hello")
             (PStr "json") (Some {[ "seed" := PInt 42; "top_k" := PInt 40 ]})
             PNone PNone PNone (PBool false) (PBool false)
             (init_state default_base_url)).2 = [req]
      ∧ payload_options req = Some (PDict {[ "seed" := PInt 42; "top_k" := PInt 40 ]}).
Proof.
  assert (map_Forall (λ k _, k ∈ allowed_options)
            ({[ "seed" := PInt 42; "top_k" := PInt 40 ]} : gmap string pyval)) as Hall.
  { apply map_Forall_insert_2; [by_decide|].
    apply map_Forall_singleton. by_decide. }
  split; [exact Hall|].
  exact (generate_completion_allowed_options_pass_through serving_world
    (PStr "llama2") (PStr "hello") (PStr "json") _ PNone PNone PNone
    (PBool false) (PBool false) (init_state default_base_url) Hall).
Defined.

(** X13.  A key outside the allow-list has no influence on
    [generate_completion]: adding it to [options], with any value, changes
    neither the request sent nor the result. *)
Theorem generate_completion_ignores_unlisted_key
    w model prompt format (d : gmap string pyval) k v
    system template context stream raw s :
  k ∉ allowed_options →
  generate_completion w model prompt format (Some (<[k:=v]> d)) system template
    context stream raw s =
  generate_completion w model prompt format (Some d) system template
    context stream raw s.
Proof.
  intros Hk. unfold generate_completion.
  by rewrite !or_empty_dict_Some, dict_comp_allowed_insert_not.
Qed.

Lemma generate_completion_ignores_unlisted_key_witness :
  ("bogus" ∉ allowed_options)
  ∧ generate_completion refusing_world (PStr "llama2") (PStr "hello") (PStr "json")
      (Some (<["bogus" := PInt 1]> {[ "seed" := PInt 42 ]}))
      PNone PNone PNone (PBool false) (PBool false) (init_state default_base_url) =
    generate_completion refusing_world (PStr "llama2") (PStr "hello") (PStr "json")
      (Some {[ "seed" := PInt 42 ]})
      PNone PNone PNone (PBool false) (PBool false) (init_state default_base_url).
Proof.
  assert ("bogus" ∉ allowed_options) as Hk by by_decide.
  split; [exact Hk|].
  exact (generate_completion_ignores_unlisted_key refusing_world (PStr "llama2")
    (PStr "hello") (PStr "json") {[ "seed" := PInt 42 ]} "bogus" (PInt 1)
    PNone PNone PNone (PBool false) (PBool false) (init_state default_base_url) Hk).
Defined.

(** X14.  [generate_embeddings] does not depend on [additional_options] at
    all: any two values give the same request and the same result. *)
Theorem generate_embeddings_ignores_additional_options
    w model prompt (o1 o2 : option (gmap string pyval)) s :
  generate_embeddings w model prompt o1 s = generate_embeddings w model prompt o2 s.
Proof. unfold generate_embeddings. by rewrite !dict_comp_allowed_nil. Qed.

(** X15.  [generate_chat_completion] and [generate_completion] differ on a
    key outside the allow-list: the chat payload carries it with its value,
    the completion payload does not carry it. *)
Theorem chat_forwards_what_completion_drops
    w model prompt messages format (d : gmap string pyval) k v
    system template context stream raw s :
  k ∉ allowed_options →
  d !! k = Some v →
  (∃ req chat_options,
     net (generate_chat_completion w model messages format (Some d) template
            stream s).2 = net s ++ [req]
     ∧ payload_options req = Some (PDict chat_options)
     ∧ chat_options !! k = Some v)
  ∧ (∃ req validated,
       net (generate_completion w model prompt format (Some d) system template
              context stream raw s).2 = net s ++ [req]
       ∧ payload_options req = Some (PDict validated)
       ∧ validated !! k = None).
Proof.
  intros Hk Hv. split.
  - unfold generate_chat_completion. rewrite _post_request_run. cbn [snd logged net].
    rewrite or_empty_dict_Some. eexists _, d. split; [done|]. split; [|done].
    unfold payload_options. cbn [json_body]. by simplify_map_eq.
  - unfold generate_completion. rewrite _post_request_run. cbn [snd logged net].
    rewrite or_empty_dict_Some.
    eexists _, (dict_comp_allowed allowed_options d). split; [done|]. split.
    + unfold payload_options. cbn [json_body]. by simplify_map_eq.
    + apply eq_None_not_Some. intros [x Hx].
      apply dict_comp_allowed_lookup in Hx as [Hin _]. by apply Hk.
Qed.

Lemma chat_forwards_what_completion_drops_witness :
  ("bogus" ∉ allowed_options)
  ∧ ({[ "bogus" := PInt 1 ]} : gmap string pyval) !! "bogus" = Some (PInt 1)
  ∧ ∃ req validated,
      net (generate_completion refusing_world (PStr "llama2") (PStr "hello")
             (PStr "json") (Some {[ "bogus" := PInt 1 ]}) PNone PNone PNone
             (PBool false) (PBool false) (init_state default_base_url)).2 = [] ++ [req]
      ∧ payload_options req = Some (PDict validated)
      ∧ validated !! "bogus" = None.
Proof.
  assert ("bogus" ∉ allowed_options) as Hk by by_decide.
  split; [exact Hk|]. split; [reflexivity|].
  exact (proj2 (chat_forwards_what_completion_drops refusing_world (PStr "llama2")
    (PStr "hello") (PList []) (PStr "json") {[ "bogus" := PInt 1 ]} "bogus" (PInt 1)
    PNone PNone PNone (PBool false) (PBool false) (init_state default_base_url)
    Hk eq_refl)).
Defined.

(** ** Further properties of the results *)

(** The value of a call that wraps one request as a pair. *)
Lemma invoke_pair_run (m : Py (Z * Response)) (t : TransportResult) s s' :
  m s = (status_pair t, s') →
  (p ← m; mret (RetPair p.1 p.2)) s =
    (match t with
     | Answered r => Return (RetPair (status_code r) r)
     | Failed kind msg => Raise (RequestException kind msg)
     end, s').
Proof. intros Hm. rewrite bind_run, Hm. by destruct t. Qed.

(** The value and the final state of every call, by case on what the world
    does with the request the call builds. *)
Lemma invoke_run w c s :
  ∃ req,
    url req = match c with
              | CCreateBlob digest _ => "blobs/" +:+ digest
              | _ => api_url (self s) +:+ "/" +:+ endpoint_of c
              end
    ∧ invoke w c s =
      match c with
      | CBlobExists _ =>
          (match transport w (net s) req with
           | Answered r => Return (RetBool (status_code r =? 200))
           | Failed kind msg => Raise (RequestException kind msg)
           end, logged req s)
      | CCreateBlob digest file_path =>
          match create_blob w digest file_path s with
          | (Return z, s') => (Return (RetInt z), s')
          | (Raise e, s') => (Raise e, s')
          end
      | CPullModel name insecure stream _ =>
          (Return (RetResult (Generator (PullStart name insecure stream))), s)
      | CPushModel name insecure stream _ =>
          (Return (RetResult (Generator (PushStart name insecure stream))), s)
      | _ =>
          (match transport w (net s) req with
           | Answered r => Return (RetPair (status_code r) r)
           | Failed kind msg => Raise (RequestException kind msg)
           end, logged req s)
      end.
Proof.
  destruct c; cbn [invoke];
    try (eexists; split; [|apply invoke_pair_run;
           unfold generate_completion, generate_chat_completion, create_model,
             show_model_info, copy_model, generate_embeddings, list_local_models,
             delete_model;
           first [ apply _post_request_run | apply _get_request_run
                 | apply _delete_request_run ]]; done).
  - exists (mkRequest HEAD (api_url (self s) +:+ "/" +:+ "blobs/" +:+ digest) None [] false).
    split; [done|]. rewrite bind_run. unfold blob_exists.
    rewrite _head_request_run. cbn zeta. by destruct (transport w _ _).
  - exists (upload_request digest []). split; [done|]. by rewrite bind_run.
  - by exists (pull_request (api_url (self s)) name insecure stream).
  - by exists (push_request (api_url (self s)) name insecure stream).
Qed.

(** X16.  Whenever a call returns a (status, response) pair, the response
    is the transport's answer to the one request the call sent and the
    status is that response's own status code: an error status such as 404
    or 500 is returned like any other, never raised. *)
Theorem returned_pair_is_the_answer w c s status response :
  (invoke w c s).1 = Return (RetPair status response) →
  status = status_code response
  ∧ ∃ req, net (invoke w c s).2 = net s ++ [req]
           ∧ transport w (net s) req = Answered response.
Proof.
  destruct (invoke_run w c s) as (req & _ & Hrun). rewrite Hrun. clear Hrun.
  destruct c; cbn [fst snd];
    try (destruct (transport w (net s) req) as [r|] eqn:Ht; [|done];
         intros [= <- <-]; split; [done|]; by exists req).
  - by destruct (transport w (net s) req).
  - by destruct (create_blob w digest file_path s) as [[z|e] s'].
  - done.
  - done.
Qed.

Lemma returned_pair_is_the_answer_witness :
  (invoke serving_world CListLocalModels (init_state default_base_url)).1 =
    Return (RetPair 201 serving_response)
  ∧ 201 = status_code serving_response.
Proof.
  split; [reflexivity|].
  exact (proj1 (returned_pair_is_the_answer serving_world CListLocalModels
    (init_state default_base_url) 201 serving_response eq_refl)).
Defined.

(** X17.  When the transport fails on every request, each operation lets
    the transport's exception through to its caller, except [create_blob]
    (500, or [FileNotFoundError] for a missing path) and the pull and push
    calls, which hand back a generator without having sent anything. *)
Theorem transport_failure_reaches_the_caller w c s kind msg :
  (∀ req, transport w (net s) req = Failed kind msg) →
  (invoke w c s).1 =
    match c with
    | CCreateBlob _ file_path =>
        match fs w file_path with
        | Absent => Raise (FileNotFoundError ("File not found: " +:+ file_path))
        | _ => Return (RetInt 500)
        end
    | CPullModel name insecure stream _ =>
        Return (RetResult (Generator (PullStart name insecure stream)))
    | CPushModel name insecure stream _ =>
        Return (RetResult (Generator (PushStart name insecure stream)))
    | _ => Raise (RequestException kind msg)
    end.
Proof.
  intros Hdown. destruct (invoke_run w c s) as (req & _ & Hrun). rewrite Hrun.
  destruct c; cbn [fst]; rewrite ?Hdown; try done.
  rewrite create_blob_run. destruct (fs w file_path) as [|content|]; [done| |done].
  cbn zeta. by rewrite Hdown.
Qed.

Lemma transport_failure_reaches_the_caller_witness :
  (∀ req, transport refusing_world (net (init_state default_base_url)) req =
            Failed ConnectionError "Connection refused")
  ∧ (invoke refusing_world (CShowModelInfo (PStr "llama2"))
       (init_state default_base_url)).1 =
      Raise (RequestException ConnectionError "Connection refused").
Proof.
  split; [intros req; reflexivity|].
  exact (transport_failure_reaches_the_caller refusing_world
    (CShowModelInfo (PStr "llama2")) (init_state default_base_url)
    ConnectionError "Connection refused" (λ _, eq_refl)).
Defined.
